(** * Verification of the time-zone conversion core of server.js

    The development embeds the conversion core of [server.js]:
    [getOffset], [convertTime], [calculateEpochFromTimezone] and the
    conversion part of the [/convert-multi] handler, together with the
    pieces of the JavaScript runtime these functions use: [Number] on
    strings, [String.prototype.split], [Date.UTC], [new Date] (TimeClip)
    and the [Intl.DateTimeFormat] formatter over a time-zone table. *)

From Stdlib Require Import ZArith QArith Qreduction Qabs String Ascii List Bool Lia.
From Stdlib Require Qcanon.
Import ListNotations.
Open Scope Z_scope.

(** ** JavaScript numbers

    A JS number is NaN, an infinity or a finite binary64 value; finite
    values are kept as the rational they denote.  Every arithmetic result
    goes through [round64], round-to-nearest-even into binary64 with
    overflow to an infinity.  The sign of zero is not tracked: no code
    path below distinguishes -0 from +0 (both are falsy, both truncate to
    0, and [x - (-0)] is [x]). *)
Inductive num : Type :=
| NaN
| Fin (q : Q)
| Inf (neg : bool).

Definition two_pow (e : Z) : Q :=
  if 0 <=? e then inject_Z (2 ^ e) else Qmake 1 (Z.to_pos (2 ^ (- e))).

(** Rounding half to even of the positive fraction [n / d]. *)
Definition round_half_even (n d : Z) : Z :=
  let qf := n / d in
  let r := n mod d in
  match Z.compare (2 * r) d with
  | Gt => qf + 1
  | Eq => if Z.even qf then qf else qf + 1
  | Lt => qf
  end.

(** Binary64 rounding of a positive rational [n / d] ([n, d > 0]):
    the result is [m * 2^E] with [E] the exponent of the binade of
    [n / d] less 52, but never below the subnormal exponent -1074. *)
Definition round_pos (n d : Z) : Q :=
  let e := Z.log2 n - Z.log2 d in
  let ge_pow := if 0 <=? e then d * 2 ^ e <=? n else d <=? n * 2 ^ (- e) in
  let fl := if ge_pow then e else e - 1 in
  let E := Z.max (fl - 52) (-1074) in
  let m := if E <=? 0 then round_half_even (n * 2 ^ (- E)) d
           else round_half_even n (d * 2 ^ E) in
  Qred (inject_Z m * two_pow E).

Definition max_finite_bound : Q := inject_Z (2 ^ 1024).

Definition round64 (q : Q) : num :=
  let r := Qred q in
  if (Zpos (Qden r) =? 1) && (Z.abs (Qnum r) <=? 2 ^ 53) then Fin r
  else
    match Qnum r with
    | Z0 => Fin 0
    | Zpos n =>
        let v := round_pos (Zpos n) (Zpos (Qden r)) in
        if Qle_bool max_finite_bound v then Inf false else Fin v
    | Zneg n =>
        let v := round_pos (Zpos n) (Zpos (Qden r)) in
        if Qle_bool max_finite_bound v then Inf true else Fin (- v)
    end.

Definition num_of_Z (z : Z) : num := round64 (inject_Z z).

(** [a + b], [a - b], [a * b], [a / b] and unary [-a] on JS numbers. *)
Definition js_add (a b : num) : num :=
  match a, b with
  | Fin x, Fin y => round64 (x + y)
  | Fin _, Inf s | Inf s, Fin _ => Inf s
  | Inf s, Inf t => if Bool.eqb s t then Inf s else NaN
  | _, _ => NaN
  end.

Definition js_neg (a : num) : num :=
  match a with
  | NaN => NaN
  | Fin x => Fin (- x)
  | Inf s => Inf (negb s)
  end.

Definition js_sub (a b : num) : num := js_add a (js_neg b).

Definition js_mul (a b : num) : num :=
  match a, b with
  | Fin x, Fin y => round64 (x * y)
  | Fin x, Inf s | Inf s, Fin x =>
      if Qeq_bool x 0 then NaN else Inf (xorb s (negb (Qle_bool 0 x)))
  | Inf s, Inf t => Inf (xorb s t)
  | _, _ => NaN
  end.

(** Division; the sign of a zero divisor is taken to be +0. *)
Definition js_div (a b : num) : num :=
  match a, b with
  | Fin x, Fin y =>
      if Qeq_bool y 0 then
        (if Qeq_bool x 0 then NaN else Inf (negb (Qle_bool 0 x)))
      else round64 (x / y)
  | Inf s, Fin y =>
      if Qeq_bool y 0 then NaN else Inf (xorb s (negb (Qle_bool 0 y)))
  | Fin _, Inf _ => Fin 0
  | _, _ => NaN
  end.

(** [ToBoolean] of a number: falsy are NaN and zero. *)
Definition truthy (a : num) : bool :=
  match a with
  | NaN => false
  | Fin x => negb (Qeq_bool x 0)
  | Inf _ => true
  end.

Definition is_nan (a : num) : bool :=
  match a with NaN => true | _ => false end.

(** Truncation toward zero of a rational ([ToIntegerOrInfinity]). *)
Definition Qtrunc (q : Q) : Z := Z.quot (Qnum q) (Zpos (Qden q)).

(** ** [Number(string)]: the StringToNumber conversion

    Strings are ASCII here; white space is the ASCII white space and line
    terminators (tab, LF, VT, FF, CR, space).  The grammar is
    StrNumericLiteral: an optionally signed decimal literal (digits with an
    optional fraction and exponent, or [Infinity]), or a [0x]/[0o]/[0b]
    integer; the empty (or all-blank) string is 0, anything else NaN. *)
Definition is_js_space (c : ascii) : bool :=
  let n := nat_of_ascii c in
  (Nat.eqb n 9) || (Nat.eqb n 10) || (Nat.eqb n 11) || (Nat.eqb n 12)
  || (Nat.eqb n 13) || (Nat.eqb n 32).

Fixpoint trim_start (s : string) : string :=
  match s with
  | String c r => if is_js_space c then trim_start r else s
  | EmptyString => EmptyString
  end.

Definition trim (s : string) : string :=
  string_of_list_ascii
    (rev (list_ascii_of_string
            (trim_start (string_of_list_ascii
                           (rev (list_ascii_of_string (trim_start s))))))).

(** Value of an ASCII digit in radix [b], if it is one. *)
Definition digit_val (b : Z) (c : ascii) : option Z :=
  let n := Z.of_nat (nat_of_ascii c) in
  let v := if (48 <=? n) && (n <=? 57) then n - 48
           else if (97 <=? n) && (n <=? 122) then n - 87
           else if (65 <=? n) && (n <=? 90) then n - 55
           else 100 in
  if v <? b then Some v else None.

(** Longest prefix of radix-[b] digits: (value, digit count, rest). *)
Fixpoint take_digits (b : Z) (s : string) (acc : Z) (k : nat)
  : Z * nat * string :=
  match s with
  | String c r =>
      match digit_val b c with
      | Some v => take_digits b r (acc * b + v) (S k)
      | None => (acc, k, s)
      end
  | EmptyString => (acc, k, s)
  end.

(** A non-empty string of radix-[b] digits only. *)
Definition all_digits (b : Z) (s : string) : option Z :=
  match take_digits b s 0 O with
  | (v, S _, EmptyString) => Some v
  | _ => None
  end.

Definition non_decimal (s : string) : option Z :=
  match s with
  | String "0" (String x r) =>
      if (x =? "x")%char || (x =? "X")%char then all_digits 16 r
      else if (x =? "o")%char || (x =? "O")%char then all_digits 8 r
      else if (x =? "b")%char || (x =? "B")%char then all_digits 2 r
      else None
  | _ => None
  end.

(** Optional sign: (is negative, rest). *)
Definition take_sign (s : string) : bool * string :=
  match s with
  | String "+" r => (false, r)
  | String "-" r => (true, r)
  | _ => (false, s)
  end.

(** ExponentPart, which must end the string. *)
Definition exponent_part (s : string) : option Z :=
  match s with
  | EmptyString => Some 0
  | String e r =>
      if (e =? "e")%char || (e =? "E")%char then
        let '(ng, r') := take_sign r in
        match all_digits 10 r' with
        | Some v => Some (if ng then - v else v)
        | None => None
        end
      else None
  end.

(** StrUnsignedDecimalLiteral other than [Infinity], as an exact rational. *)
Definition unsigned_decimal (s : string) : option Q :=
  let '(ip, ni, r) := take_digits 10 s 0 O in
  let '(fp, nf, r') :=
    match r with
    | String "." r1 => take_digits 10 r1 0 O
    | _ => (0, O, r)
    end in
  let has_dot := match r with String "." _ => true | _ => false end in
  let r'' := if has_dot then r' else r in
  match ni, nf with
  | O, O => None
  | _, _ =>
      match exponent_part r'' with
      | Some ex =>
          let mant := ip * 10 ^ Z.of_nat nf + fp in
          let sc := ex - Z.of_nat nf in
          Some (if 0 <=? sc then inject_Z (mant * 10 ^ sc)
                else Qmake mant (Z.to_pos (10 ^ (- sc))))
      | None => None
      end
  end.

Definition string_to_number (s0 : string) : num :=
  let s := trim s0 in
  match s with
  | EmptyString => Fin 0
  | _ =>
      match non_decimal s with
      | Some v => num_of_Z v
      | None =>
          let '(ng, r) := take_sign s in
          if String.eqb r "Infinity" then Inf ng
          else match unsigned_decimal r with
               | Some q => round64 (if ng then - q else q)
               | None => NaN
               end
      end
  end.

(** ** [String.prototype.split] with a one-character separator *)
Fixpoint split_acc (sep : ascii) (s : string) (cur : string)
  : list string :=
  match s with
  | EmptyString => [cur]
  | String c r =>
      if (c =? sep)%char then cur :: split_acc sep r EmptyString
      else split_acc sep r (cur ++ String c EmptyString)
  end.

Definition split (s : string) (sep : ascii) : list string :=
  split_acc sep s EmptyString.

(** ** Time values and [Date.UTC]

    A time value is an integer count of milliseconds since 1970-01-01T00:00Z
    ([option Z], [None] standing for NaN, an Invalid Date).  Calendar
    arithmetic is the proleptic Gregorian one of ECMA-262 (MakeDay, MakeTime,
    MakeDate, TimeClip).  The sums inside MakeDate are taken exactly: TimeClip
    keeps only magnitudes up to 8.64e15 < 2^53, where binary64 is exact. *)

(** Day number (days since 1970-01-01) of a proleptic Gregorian date. *)
Definition days_from_civil (y m d : Z) : Z :=
  let y' := if m <=? 2 then y - 1 else y in
  let era := y' / 400 in
  let yoe := y' - era * 400 in
  let mp := (m + 9) mod 12 in
  let doy := (153 * mp + 2) / 5 + d - 1 in
  let doe := yoe * 365 + yoe / 4 - yoe / 100 + doy in
  era * 146097 + doe - 719468.

Record civil := mkCivil {
  c_year : Z; c_month : Z; c_day : Z;
  c_hour : Z; c_minute : Z; c_second : Z }.

(** Calendar date (year, month 1-12, day 1-31) of a day number. *)
Definition civil_from_days (z : Z) : Z * Z * Z :=
  let z' := z + 719468 in
  let era := z' / 146097 in
  let doe := z' - era * 146097 in
  let yoe := (doe - doe / 1460 + doe / 36524 - doe / 146096) / 365 in
  let doy := doe - (365 * yoe + yoe / 4 - yoe / 100) in
  let mp := (5 * doy + 2) / 153 in
  let d := doy - (153 * mp + 2) / 5 + 1 in
  let m := if mp <? 10 then mp + 3 else mp - 9 in
  let y := yoe + era * 400 in
  (if m <=? 2 then y + 1 else y, m, d).

Definition ms_per_day : Z := 86400000.

(** Calendar fields, down to the second, of a time value read as UTC. *)
Definition civil_of_time (t : Z) : civil :=
  let '(y, m, d) := civil_from_days (t / ms_per_day) in
  let msd := t mod ms_per_day in
  mkCivil y m d (msd / 3600000) ((msd mod 3600000) / 60000)
          ((msd mod 60000) / 1000).

Definition MakeDay (y m dt : Z) : Z :=
  let ym := y + m / 12 in
  let mn := m mod 12 in
  days_from_civil ym (mn + 1) 1 + dt - 1.

Definition MakeTime (h mi s milli : Z) : Z :=
  h * 3600000 + mi * 60000 + s * 1000 + milli.

Definition TimeClip (t : Z) : option Z :=
  if Z.abs t <=? 8640000000000000 then Some t else None.

(** [ToIntegerOrInfinity] of a finite number; [None] for NaN and the
    infinities, which make MakeDay and MakeTime return NaN. *)
Definition finite_int (a : num) : option Z :=
  match a with Fin q => Some (Qtrunc q) | _ => None end.

(** [Date.UTC(year, month, date, hours, minutes, seconds)]; a year whose
    integer part lies in 0..99 means 1900 + that year. *)
Definition Date_UTC (year month date hours minutes seconds : num) : option Z :=
  let yr :=
    match year with
    | Fin q =>
        let yi := Qtrunc q in
        if (0 <=? yi) && (yi <=? 99) then Fin (inject_Z (1900 + yi)) else year
    | _ => year
    end in
  match finite_int yr, finite_int month, finite_int date,
        finite_int hours, finite_int minutes, finite_int seconds with
  | Some y, Some m, Some dt, Some h, Some mi, Some s =>
      TimeClip (MakeDay y m dt * ms_per_day + MakeTime h mi s 0)
  | _, _, _, _, _, _ => None
  end.

(** A time value used as a number ([Date.UTC(...)] in an expression,
    [date.getTime()]). *)
Definition time_num (t : option Z) : num :=
  match t with Some z => num_of_Z z | None => NaN end.

(** [new Date(x)] for a number [x]: TimeClip of [x]. *)
Definition new_Date (a : num) : option Z :=
  match a with
  | Fin q =>
      if Qle_bool (Qabs q) (inject_Z 8640000000000000) then Some (Qtrunc q)
      else None
  | _ => None
  end.

(** ** The time-zone database behind [Intl.DateTimeFormat]

    A zone is its UTC offset, in seconds, as a function of the time value.
    [zone_offset] reads a table of transitions: the offset of the last
    transition at or before [t], or [dflt] before the first one. *)
Fixpoint zone_offset (dflt : Z) (tr : list (Z * Z)) (t : Z) : Z :=
  match tr with
  | [] => dflt
  | (start, off) :: rest =>
      if start <=? t then zone_offset off rest t else dflt
  end.

(** UTC instant of a civil date-time, for writing transition tables. *)
Definition utc_ms (y m d h mi s : Z) : Z :=
  MakeDay y (m - 1) d * ms_per_day + MakeTime h mi s 0.

(** Offsets from the IANA tz database.  Bogota, Buenos Aires and Santo
    Domingo: the offsets in force since the dates listed (Bogota with its
    whole history, LMT -4:56:16, then -5:00 with the 1992-93 summer time);
    New York and Santiago: the DST transitions of 2024-2026, the offset of
    the nearest of them extending beyond. *)
Definition santiago_tr : list (Z * Z) :=
  [(utc_ms 2024 4 7 3 0 0, -14400); (utc_ms 2024 9 8 4 0 0, -10800);
   (utc_ms 2025 4 6 3 0 0, -14400); (utc_ms 2025 9 7 4 0 0, -10800);
   (utc_ms 2026 4 5 3 0 0, -14400); (utc_ms 2026 9 6 4 0 0, -10800)].

Definition new_york_tr : list (Z * Z) :=
  [(utc_ms 2024 3 10 7 0 0, -14400); (utc_ms 2024 11 3 6 0 0, -18000);
   (utc_ms 2025 3 9 7 0 0, -14400); (utc_ms 2025 11 2 6 0 0, -18000);
   (utc_ms 2026 3 8 7 0 0, -14400); (utc_ms 2026 11 1 6 0 0, -18000)].

Definition bogota_tr : list (Z * Z) :=
  [(utc_ms 1914 11 23 4 56 16, -18000); (utc_ms 1992 5 3 5 0 0, -14400);
   (utc_ms 1993 2 7 4 0 0, -18000)].

Definition tzdb (name : string) : option (Z -> Z) :=
  if String.eqb name "America/Santiago" then
    Some (zone_offset (-10800) santiago_tr)
  else if String.eqb name "America/New_York" then
    Some (zone_offset (-18000) new_york_tr)
  else if String.eqb name "America/Argentina/Buenos_Aires" then
    Some (fun _ => -10800)
  else if String.eqb name "America/Bogota" then
    Some (zone_offset (-17776) bogota_tr)
  else if String.eqb name "America/Santo_Domingo" then
    Some (fun _ => -14400)
  else None.

(** ** Errors and results *)
Inductive js_error : Type :=
| InvalidInput   (* new Error("Invalid date or time format") *)
| RangeError.    (* from Intl: unknown time zone, or an Invalid Date *)

Inductive res (A : Type) : Type :=
| Ok (a : A)
| Throw (e : js_error).
Arguments Ok {A} a.
Arguments Throw {A} e.

(** ** [Intl.DateTimeFormat] *)

(** Civil fields of time value [t] as observed in zone [off]: what
    [formatToParts] returns, each read back with [Number].  Hours are
    rendered 00-23 ([hour12: false]). *)
Definition local_civil (off : Z -> Z) (t : Z) : civil :=
  civil_of_time (t + off t * 1000).

Definition digit_char (n : Z) : ascii :=
  ascii_of_nat (48 + Z.to_nat n).

Definition two_digits (n : Z) : string :=
  String (digit_char (n / 10)) (String (digit_char (n mod 10)) EmptyString).

(** The ["HH:MM"] string of the [{hour: "2-digit", minute: "2-digit",
    hour12: false}] format. *)
Definition hhmm (c : civil) : string :=
  two_digits (c_hour c) ++ ":" ++ two_digits (c_minute c).

(** [new Intl.DateTimeFormat("en-US", {timeZone: tz, ...}).format(d)]. *)
Definition format_hhmm (tz : string) (d : option Z) : res string :=
  match tzdb tz with
  | None => Throw RangeError
  | Some off =>
      match d with
      | None => Throw RangeError
      | Some t => Ok (hhmm (local_civil off t))
      end
  end.

(** ** [getOffset(date, timeZone)] *)
Definition getOffset (date : option Z) (timeZone : string) : res num :=
  match tzdb timeZone with
  | None => Throw RangeError
  | Some off =>
      match date with
      | None => Throw RangeError
      | Some t =>
          let v := local_civil off t in
          let asUTC :=
            Date_UTC (num_of_Z (c_year v))
                     (js_sub (num_of_Z (c_month v)) (Fin 1))
                     (num_of_Z (c_day v)) (num_of_Z (c_hour v))
                     (num_of_Z (c_minute v)) (num_of_Z (c_second v)) in
          Ok (js_neg (js_div (js_sub (time_num (Some t)) (time_num asUTC))
                             (Fin 60000)))
      end
  end.

(** ** Parsing and validation shared by [convertTime] and
    [calculateEpochFromTimezone]

    [const [year, month, day] = dateStr.split("-").map(Number)]: a missing
    element is [undefined], here [None]. *)
Definition split_numbers (s : string) (sep : ascii) : list num :=
  map string_to_number (split s sep).

(** [!x] for a possibly undefined number. *)
Definition falsy (x : option num) : bool :=
  match x with None => true | Some n => negb (truthy n) end.

(** [x == null]. *)
Definition is_null (x : option num) : bool :=
  match x with None => true | Some _ => false end.

(** [Number.isNaN(x)]. *)
Definition isNaN_opt (x : option num) : bool :=
  match x with Some n => is_nan n | None => false end.

Definition invalid_check (year month day hour minute : option num) : bool :=
  falsy year || falsy month || falsy day || is_null hour || is_null minute
  || isNaN_opt year || isNaN_opt month || isNaN_opt day
  || isNaN_opt hour || isNaN_opt minute.

(** ** [calculateEpochFromTimezone(dateStr, timeStr, sourceTimezone)] *)
Definition calculateEpochFromTimezone (dateStr timeStr sourceTimezone : string)
  : res num :=
  let ds := split_numbers dateStr "-" in
  let ts := split_numbers timeStr ":" in
  let year := nth_error ds 0 in
  let month := nth_error ds 1 in
  let day := nth_error ds 2 in
  let hour := nth_error ts 0 in
  let minute := nth_error ts 1 in
  if invalid_check year month day hour minute then Throw InvalidInput
  else
    match year, month, day, hour, minute with
    | Some y, Some mo, Some d, Some h, Some mi =>
        let anchorUTC := Date_UTC y (js_sub mo (Fin 1)) d h mi (Fin 0) in
        match getOffset anchorUTC sourceTimezone with
        | Throw e => Throw e
        | Ok offsetSource =>
            Ok (js_sub (time_num (Date_UTC y (js_sub mo (Fin 1)) d h mi (Fin 0)))
                       (js_mul (js_mul offsetSource (Fin 60)) (Fin 1000)))
        end
    | _, _, _, _, _ => Throw InvalidInput
    end.

(** [results[tz] = formatted] on a JS object: an existing key keeps its
    place, a new one goes last. *)
Fixpoint obj_set (o : list (string * string)) (k v : string)
  : list (string * string) :=
  match o with
  | [] => [(k, v)]
  | (k', v') :: rest =>
      if String.eqb k k' then (k, v) :: rest else (k', v') :: obj_set rest k v
  end.

(** [for (const tz of zones) { results[tz] = format(date) }]. *)
Fixpoint format_zones (zones : list string) (d : option Z)
  (results : list (string * string)) : res (list (string * string)) :=
  match zones with
  | [] => Ok results
  | tz :: rest =>
      match format_hhmm tz d with
      | Throw e => Throw e
      | Ok formatted => format_zones rest d (obj_set results tz formatted)
      end
  end.

Definition allZones : list string :=
  ["America/Santiago"; "America/New_York"; "America/Argentina/Buenos_Aires";
   "America/Bogota"; "America/Santo_Domingo"]%string.

(** ** [convertTime(dateStr, timeStr, sourceTimezone)] (legacy [/convert]) *)
Definition convertTime (dateStr timeStr sourceTimezone : string)
  : res (list (string * string)) :=
  let ds := split_numbers dateStr "-" in
  let ts := split_numbers timeStr ":" in
  let year := nth_error ds 0 in
  let month := nth_error ds 1 in
  let day := nth_error ds 2 in
  let hour := nth_error ts 0 in
  let minute := nth_error ts 1 in
  if invalid_check year month day hour minute then Throw InvalidInput
  else
    match year, month, day, hour, minute with
    | Some y, Some mo, Some d, Some h, Some mi =>
        let anchorUTC := Date_UTC y (js_sub mo (Fin 1)) d h mi (Fin 0) in
        match getOffset anchorUTC sourceTimezone with
        | Throw e => Throw e
        | Ok offsetSource =>
            let epochUTC :=
              js_sub (time_num (Date_UTC y (js_sub mo (Fin 1)) d h mi (Fin 0)))
                     (js_mul (js_mul offsetSource (Fin 60)) (Fin 1000)) in
            let zones := filter (fun tz => negb (String.eqb tz sourceTimezone))
                                allZones in
            format_zones zones (new_Date epochUTC) []
        end
    | _, _, _, _, _ => Throw InvalidInput
    end.

(** ** The conversion of the [/convert-multi] handler (convertAll): the
    epoch from [calculateEpochFromTimezone], then every zone of the list,
    the source included. *)
Definition convert_multi (date time sourceTimezone : string)
  : res (list (string * string)) :=
  match calculateEpochFromTimezone date time sourceTimezone with
  | Throw e => Throw e
  | Ok epochUTC => format_zones allZones (new_Date epochUTC) []
  end.


(** ** Auxiliary definitions for the statements *)

(** [obj[key]] on the result object. *)
Fixpoint obj_get (o : list (string * string)) (k : string) : option string :=
  match o with
  | [] => None
  | (k', v) :: rest => if String.eqb k k' then Some v else obj_get rest k
  end.

(** Conditions under which [getOffset] at [t] is the zone offset in whole
    minutes: [t] on a whole second, the offset a whole number of minutes
    below a day, [t] and the local reading of [t] within the time-value
    range, and the local year outside 0..99 (which [Date.UTC] would read as
    1900-1999). *)
Definition offset_exact (off : Z -> Z) (t : Z) : Prop :=
  t mod 1000 = 0 /\ off t mod 60 = 0 /\ Z.abs (off t) <= 86400 /\
  Z.abs t <= 8640000000000000 /\
  Z.abs (t + off t * 1000) <= 8640000000000000 /\
  ~ (0 <= c_year (local_civil off t) <= 99).

(** Resolving civil fields [c] observed in zone [tz] back to an instant
    with the offset [getOffset] reports at [at_]: the converter's formula
    [Date.UTC(fields) - offset * 60 * 1000].  With [at_] the instant itself
    this is a re-resolution by the Offset Resolver at that instant; with
    [at_] the fields read as UTC it is the converter's anchor method. *)
Definition resolve_with (tz : string) (c : civil) (at_ : option Z) : res num :=
  let u := Date_UTC (num_of_Z (c_year c)) (js_sub (num_of_Z (c_month c)) (Fin 1))
                    (num_of_Z (c_day c)) (num_of_Z (c_hour c))
                    (num_of_Z (c_minute c)) (Fin 0) in
  match getOffset at_ tz with
  | Throw e => Throw e
  | Ok o => Ok (js_sub (time_num u) (js_mul (js_mul o (Fin 60)) (Fin 1000)))
  end.

Definition anchor_of (c : civil) : option Z :=
  Date_UTC (num_of_Z (c_year c)) (js_sub (num_of_Z (c_month c)) (Fin 1))
           (num_of_Z (c_day c)) (num_of_Z (c_hour c)) (num_of_Z (c_minute c))
           (Fin 0).

(** The offset formula in the words of the spec: the zone's civil fields
    at [t] reinterpreted as UTC by the proleptic calendar, with no special
    reading of two-digit years. *)
Definition spec_offset_minutes (off : Z -> Z) (t : Z) : Q :=
  let v := local_civil off t in
  let asUTC := days_from_civil (c_year v) (c_month v) (c_day v) * ms_per_day
               + MakeTime (c_hour v) (c_minute v) (c_second v) 0 in
  - (inject_Z (t - asUTC) / inject_Z 60000).

(** One day of a 400-year era ([doe] in 0..146096): the year of era and
    the March-based month found by [civil_from_days] are in range, and
    [days_from_civil] recovers [doe] from them. *)
Definition doe_ok (doe : Z) : bool :=
  let yoe := (doe - doe / 1460 + doe / 36524 - doe / 146096) / 365 in
  let doy := doe - (365 * yoe + yoe / 4 - yoe / 100) in
  let mp := (5 * doy + 2) / 153 in
  let d := doy - (153 * mp + 2) / 5 + 1 in
  (0 <=? yoe) && (yoe <? 400) && (0 <=? mp) && (mp <? 12)
  && (1 <=? d) && (d <=? 31)
  && (yoe * 365 + yoe / 4 - yoe / 100 + (153 * mp + 2) / 5 + d - 1 =? doe).

Fixpoint all_doe_ok (n : nat) (z : Z) : bool :=
  match n with
  | O => true
  | S k => doe_ok z && all_doe_ok k (z + 1)
  end.

(** Whether [Number] reads every two-digit rendering [two_digits n],
    [n < k], back as [n]. *)
Fixpoint two_digits_roundtrip (k : nat) : bool :=
  match k with
  | O => true
  | S j =>
      match string_to_number (two_digits (Z.of_nat j)) with
      | Fin q => (Qnum q =? Z.of_nat j) && (Pos.eqb (Qden q) 1)
                 && two_digits_roundtrip j
      | _ => false
      end
  end.

(** The largest time value, 8.64e15 ms. *)
Definition max_tv : Z := 8640000000000000.

(** ** Sanity checks of the runtime model *)

Example split_empty : split "" "-" = [""]%string.
Proof. reflexivity. Qed.

Example split_date : split "2025-01-15" "-" = ["2025"; "01"; "15"]%string.
Proof. reflexivity. Qed.

Example number_examples :
  map string_to_number [""; " 14 "; "0x1A"; "1.5"; "abc"; "-0"]%string
  = [Fin 0; Fin 14; Fin 26; Fin (3 # 2); NaN; Fin 0].
Proof. vm_compute. reflexivity. Qed.

Example date_utc_jan15 :
  Date_UTC (Fin 2025) (Fin 0) (Fin 15) (Fin 14) (Fin 30) (Fin 0)
  = Some 1736951400000.
Proof. vm_compute. reflexivity. Qed.

Example date_utc_two_digit_year :
  Date_UTC (Fin 50) (Fin 0) (Fin 1) (Fin 0) (Fin 0) (Fin 0)
  = Date_UTC (Fin 1950) (Fin 0) (Fin 1) (Fin 0) (Fin 0) (Fin 0).
Proof. vm_compute. reflexivity. Qed.

Example convert_multi_jan15 :
  convert_multi "2025-01-15" "14:30" "America/Santiago"
  = Ok [("America/Santiago", "14:30"); ("America/New_York", "12:30");
        ("America/Argentina/Buenos_Aires", "14:30");
        ("America/Bogota", "12:30"); ("America/Santo_Domingo", "13:30")]%string.
Proof. vm_compute. reflexivity. Qed.

(** ** Arithmetic of the runtime model *)

Lemma divmod (a b : Z) : 0 < b -> a = b * (a / b) + a mod b /\ 0 <= a mod b < b.
Proof. intros Hb. split; [apply Z.div_mod; lia | apply Z.mod_pos_bound; lia]. Qed.

Lemma Qred_inject_Z z : Qred (inject_Z z) = inject_Z z.
Proof. apply Qcanon.Qred_identity. simpl. apply Z.gcd_1_r. Qed.

Lemma round64_int q z :
  q == inject_Z z -> Z.abs z <= 2 ^ 53 -> round64 q = Fin (inject_Z z).
Proof.
  intros Hq Hz. unfold round64.
  rewrite (Qred_complete q (inject_Z z) Hq), Qred_inject_Z.
  apply Z.leb_le in Hz. cbn [Qnum Qden inject_Z]. rewrite Hz. reflexivity.
Qed.

Lemma num_of_Z_small z : Z.abs z <= 2 ^ 53 -> num_of_Z z = Fin (inject_Z z).
Proof. intros Hz. apply round64_int; [reflexivity | exact Hz]. Qed.

Lemma js_sub_Z a b : Z.abs (a - b) <= 2 ^ 53 ->
  js_sub (Fin (inject_Z a)) (Fin (inject_Z b)) = Fin (inject_Z (a - b)).
Proof.
  intros H. unfold js_sub, js_add, js_neg. apply round64_int; [|exact H].
  unfold Qeq; simpl; lia.
Qed.

Lemma js_mul_Z a b : Z.abs (a * b) <= 2 ^ 53 ->
  js_mul (Fin (inject_Z a)) (Fin (inject_Z b)) = Fin (inject_Z (a * b)).
Proof.
  intros H. unfold js_mul. apply round64_int; [|exact H].
  unfold Qeq; simpl; lia.
Qed.

Lemma js_div_Z a b c : b <> 0 -> a = b * c -> Z.abs c <= 2 ^ 53 ->
  js_div (Fin (inject_Z a)) (Fin (inject_Z b)) = Fin (inject_Z c).
Proof.
  intros Hb -> Hc. unfold js_div.
  assert (Qeq_bool (inject_Z b) 0 = false) as E.
  { apply not_true_iff_false. intros E. apply Qeq_bool_iff in E.
    unfold Qeq in E. simpl in E. lia. }
  rewrite E. apply round64_int; [|exact Hc].
  rewrite inject_Z_mult. field. intros E'. apply Hb.
  unfold Qeq in E'. simpl in E'. lia.
Qed.

Lemma js_neg_Z a : js_neg (Fin (inject_Z a)) = Fin (inject_Z (- a)).
Proof. reflexivity. Qed.

Lemma Qtrunc_Z z : Qtrunc (inject_Z z) = z.
Proof. unfold Qtrunc. simpl. apply Z.quot_1_r. Qed.

Lemma finite_int_Z z : finite_int (Fin (inject_Z z)) = Some z.
Proof. unfold finite_int. rewrite Qtrunc_Z. reflexivity. Qed.

(** [Date.UTC] on integer arguments, the year outside 0..99. *)
Lemma Date_UTC_Z y m d h mi s : ~ (0 <= y <= 99) ->
  Date_UTC (Fin (inject_Z y)) (Fin (inject_Z m)) (Fin (inject_Z d))
           (Fin (inject_Z h)) (Fin (inject_Z mi)) (Fin (inject_Z s))
  = TimeClip (MakeDay y m d * ms_per_day + MakeTime h mi s 0).
Proof.
  intros Hy. unfold Date_UTC. rewrite Qtrunc_Z.
  destruct ((0 <=? y) && (y <=? 99)) eqn:E.
  - apply andb_prop in E as [E1 E2]. apply Z.leb_le in E1, E2. lia.
  - rewrite !finite_int_Z. reflexivity.
Qed.

(** ** The calendar *)

Lemma all_doe_ok_spec n : forall z, all_doe_ok n z = true ->
  forall w, z <= w < z + Z.of_nat n -> doe_ok w = true.
Proof.
  induction n as [|n IH]; simpl; intros z H w Hw; [lia|].
  apply andb_prop in H as [H1 H2].
  destruct (Z.eq_dec w z) as [->|Hne]; [exact H1|].
  apply (IH (z + 1)); [exact H2|lia].
Qed.

Lemma doe_ok_all doe : 0 <= doe < 146097 -> doe_ok doe = true.
Proof.
  intros Hd. apply (all_doe_ok_spec (Z.to_nat 146097) 0); [|rewrite Z2Nat.id; lia].
  vm_compute. reflexivity.
Qed.

(** [civil_from_days] lands on valid fields and [days_from_civil] inverts it. *)
Lemma civil_from_days_spec z :
  let '(y, m, d) := civil_from_days z in
  days_from_civil y m d = z /\ 1 <= m <= 12 /\ 1 <= d <= 31 /\
  Z.abs y <= Z.abs z + 2000000.
Proof.
  unfold civil_from_days.
  set (z' := z + 719468).
  set (era := z' / 146097).
  set (doe := z' - era * 146097).
  destruct (divmod z' 146097) as [Hz Hb]; [lia|].
  assert (Hr : 0 <= doe < 146097) by (unfold doe, era; lia).
  pose proof (doe_ok_all doe Hr) as Hok. unfold doe_ok in Hok.
  set (yoe := (doe - doe / 1460 + doe / 36524 - doe / 146096) / 365) in *.
  set (doy := doe - (365 * yoe + yoe / 4 - yoe / 100)) in *.
  set (mp := (5 * doy + 2) / 153) in *.
  set (d := doy - (153 * mp + 2) / 5 + 1) in *.
  repeat rewrite andb_true_iff in Hok.
  destruct Hok as [[[[[[H1 H2] H3] H4] H5] H6] H7].
  apply Z.leb_le in H1, H3, H5, H6; apply Z.ltb_lt in H2, H4; apply Z.eqb_eq in H7.
  assert (Hy' : forall m, (m = (if mp <? 10 then mp + 3 else mp - 9)) ->
     (if m <=? 2 then (if m <=? 2 then yoe + era * 400 + 1 else yoe + era * 400) - 1
      else (if m <=? 2 then yoe + era * 400 + 1 else yoe + era * 400)) = yoe + era * 400
     /\ (m + 9) mod 12 = mp /\ 1 <= m <= 12).
  { intros m ->. destruct (mp <? 10) eqn:E.
    - apply Z.ltb_lt in E. destruct (mp + 3 <=? 2) eqn:E2; [apply Z.leb_le in E2; lia|].
      split; [reflexivity|]. split; [|lia]. replace (mp + 3 + 9) with (mp + 1 * 12) by lia.
      rewrite Z.mod_add by lia. apply Z.mod_small; lia.
    - apply Z.ltb_ge in E. destruct (mp - 9 <=? 2) eqn:E2; [|apply Z.leb_gt in E2; lia].
      split; [lia|]. split; [|lia]. replace (mp - 9 + 9) with mp by lia.
      apply Z.mod_small; lia. }
  destruct (Hy' _ eq_refl) as [Ey [Em Hm]].
  set (m := if mp <? 10 then mp + 3 else mp - 9) in *.
  split; [|split; [exact Hm|split; [lia|]]].
  - unfold days_from_civil. cbv zeta. rewrite Ey, Em.
    replace ((yoe + era * 400) / 400) with era
      by (rewrite Z.add_comm, Z.div_add_l by lia; rewrite Z.div_small by lia; lia).
    replace (yoe + era * 400 - era * 400) with yoe by lia.
    unfold doe in H7. lia.
  - assert (Z.abs era <= Z.abs z / 146097 + 10).
    { destruct (divmod (Z.abs z) 146097) as [Ha Hab]; [lia|]. lia. }
    destruct (m <=? 2); lia.
Qed.


Lemma MakeDay_month y m d : 1 <= m <= 12 ->
  MakeDay y (m - 1) d = days_from_civil y m d.
Proof.
  intros Hm. unfold MakeDay.
  rewrite (Z.div_small (m - 1) 12), (Z.mod_small (m - 1) 12) by lia.
  replace (y + 0) with y by lia. replace (m - 1 + 1) with m by lia.
  unfold days_from_civil. lia.
Qed.

(** The fields of [civil_of_time L], written back with [MakeDay] and
    [MakeTime], give [L] down to the second, or to the minute when the
    seconds are dropped. *)
Lemma civil_of_time_spec L :
  let c := civil_of_time L in
  MakeDay (c_year c) (c_month c - 1) (c_day c) * ms_per_day
    + MakeTime (c_hour c) (c_minute c) (c_second c) 0 = L - L mod 1000 /\
  MakeDay (c_year c) (c_month c - 1) (c_day c) * ms_per_day
    + MakeTime (c_hour c) (c_minute c) 0 0 = L - L mod 60000 /\
  1 <= c_month c <= 12 /\ 1 <= c_day c <= 31 /\ 0 <= c_hour c < 24 /\
  0 <= c_minute c < 60 /\ 0 <= c_second c < 60 /\
  Z.abs (c_year c) <= Z.abs (L / ms_per_day) + 2000000.
Proof.
  unfold civil_of_time.
  pose proof (civil_from_days_spec (L / ms_per_day)) as Hc.
  destruct (civil_from_days (L / ms_per_day)) as [[y m] d].
  destruct Hc as [Hrt [Hm [Hd Hy]]]. cbn [c_year c_month c_day c_hour c_minute c_second].
  rewrite MakeDay_month by exact Hm. rewrite Hrt. unfold MakeTime, ms_per_day in *.
  set (msd := L mod 86400000).
  destruct (divmod L 86400000) as [H1 H1b]; [lia|].
  destruct (divmod msd 3600000) as [H2 H2b]; [lia|].
  destruct (divmod (msd mod 3600000) 60000) as [H3 H3b]; [lia|].
  destruct (divmod (msd mod 60000) 1000) as [H4 H4b]; [lia|].
  destruct (divmod msd 60000) as [H5 H5b]; [lia|].
  destruct (divmod L 1000) as [H6 H6b]; [lia|].
  destruct (divmod L 60000) as [H7 H7b]; [lia|].
  split; [lia|]. split; [lia|].
  repeat split; lia.
Qed.


Lemma year_bound L : Z.abs L <= max_tv ->
  Z.abs (L / ms_per_day) + 2000000 <= 2 ^ 53.
Proof.
  intros HL. unfold max_tv, ms_per_day in *.
  destruct (divmod L 86400000) as [H1 H1b]; [lia|]. lia.
Qed.

Ltac small := first [ assumption | unfold max_tv, ms_per_day in *; lia ].

Lemma TimeClip_in t : Z.abs t <= max_tv -> TimeClip t = Some t.
Proof. intros H. unfold TimeClip. apply Z.leb_le in H. unfold max_tv in H. rewrite H. reflexivity. Qed.

(** The zone's civil fields at [t], read back by [Date.UTC]. *)
Lemma Date_UTC_local off t : offset_exact off t ->
  let L := t + off t * 1000 in
  let c := local_civil off t in
  Date_UTC (num_of_Z (c_year c)) (js_sub (num_of_Z (c_month c)) (Fin 1))
           (num_of_Z (c_day c)) (num_of_Z (c_hour c)) (num_of_Z (c_minute c))
           (num_of_Z (c_second c)) = Some (L - L mod 1000) /\
  Date_UTC (num_of_Z (c_year c)) (js_sub (num_of_Z (c_month c)) (Fin 1))
           (num_of_Z (c_day c)) (num_of_Z (c_hour c)) (num_of_Z (c_minute c))
           (Fin 0) = Some (L - L mod 60000).
Proof.
  intros [Hms [H60 [Hoff [Ht [HL Hy]]]]] L c.
  unfold c, local_civil in *. fold L in Hy |- *.
  pose proof (civil_of_time_spec L) as [E1 [E2 [Hm [Hd [Hh [Hmi [Hs Hyb]]]]]]].
  pose proof (year_bound L HL) as Hyb2.
  set (c0 := civil_of_time L) in *.
  rewrite !num_of_Z_small by small.
  change (Fin 1) with (Fin (inject_Z 1)).
  rewrite js_sub_Z by small.
  change (Fin 0) with (Fin (inject_Z 0)).
  rewrite !Date_UTC_Z by exact Hy.
  destruct (divmod L 1000) as [H6 H6b]; [lia|].
  destruct (divmod L 60000) as [H7 H7b]; [lia|].
  rewrite E1, E2. split; apply TimeClip_in; unfold max_tv; lia.
Qed.

Lemma time_num_small t : Z.abs t <= max_tv -> time_num (Some t) = Fin (inject_Z t).
Proof. intros H. apply num_of_Z_small. small. Qed.

(** Under [offset_exact], [getOffset] is the zone offset in minutes. *)
Lemma getOffset_exact tz off t : tzdb tz = Some off -> offset_exact off t ->
  getOffset (Some t) tz = Ok (Fin (inject_Z (off t / 60))).
Proof.
  intros Htz Hex. pose proof (Date_UTC_local off t Hex) as [E _].
  destruct Hex as [Hms [H60 [Hoff [Ht [HL Hy]]]]].
  unfold getOffset. rewrite Htz. cbv zeta. rewrite E.
  set (L := t + off t * 1000).
  assert (HLm : L mod 1000 = 0).
  { unfold L. rewrite Z.add_mod, Hms, Z.mod_mul by lia. reflexivity. }
  rewrite HLm, Z.sub_0_r.
  rewrite !time_num_small by small.
  rewrite js_sub_Z by small.
  change (Fin 60000) with (Fin (inject_Z 60000)).
  destruct (divmod (off t) 60) as [Ho Hob]; [lia|].
  rewrite (js_div_Z _ _ (- (off t / 60))) by (unfold L; lia).
  rewrite js_neg_Z. f_equal. f_equal. f_equal. lia.
Qed.


(** [convertTime] is [calculateEpochFromTimezone] followed by the
    formatting loop over the zones other than the source. *)
Lemma convertTime_epoch dateStr timeStr src :
  convertTime dateStr timeStr src =
  match calculateEpochFromTimezone dateStr timeStr src with
  | Throw e => Throw e
  | Ok epochUTC =>
      format_zones (filter (fun tz => negb (String.eqb tz src)) allZones)
                   (new_Date epochUTC) []
  end.
Proof.
  unfold convertTime, calculateEpochFromTimezone. cbv zeta.
  destruct (invalid_check _ _ _ _ _); [reflexivity|].
  destruct (nth_error (split_numbers dateStr "-") 0); [|reflexivity].
  destruct (nth_error (split_numbers dateStr "-") 1); [|reflexivity].
  destruct (nth_error (split_numbers dateStr "-") 2); [|reflexivity].
  destruct (nth_error (split_numbers timeStr ":") 0); [|reflexivity].
  destruct (nth_error (split_numbers timeStr ":") 1); [|reflexivity].
  destruct (getOffset _ _); reflexivity.
Qed.

Lemma obj_set_fresh o k v : ~ In k (map fst o) ->
  obj_set o k v = o ++ [(k, v)].
Proof.
  induction o as [|[k' v'] o IH]; simpl; intros Hn; [reflexivity|].
  destruct (String.eqb k k') eqn:E.
  - apply String.eqb_eq in E. subst. exfalso. apply Hn. left. reflexivity.
  - rewrite IH by tauto. reflexivity.
Qed.

Lemma obj_get_app o1 o2 k :
  obj_get (o1 ++ o2) k = match obj_get o1 k with Some v => Some v | None => obj_get o2 k end.
Proof.
  induction o1 as [|[k' v'] o1 IH]; simpl; [reflexivity|].
  destruct (String.eqb k k'); [reflexivity|exact IH].
Qed.

Lemma obj_get_none o k : ~ In k (map fst o) -> obj_get o k = None.
Proof.
  induction o as [|[k' v'] o IH]; simpl; intros Hn; [reflexivity|].
  destruct (String.eqb k k') eqn:E.
  - apply String.eqb_eq in E. subst. exfalso. apply Hn. left. reflexivity.
  - apply IH. tauto.
Qed.

(** The formatting loop over distinct known zones, at a valid date. *)
Lemma format_zones_spec zones t : forall acc,
  (forall z, In z zones -> tzdb z <> None) -> NoDup zones ->
  (forall z, In z zones -> ~ In z (map fst acc)) ->
  exists m, format_zones zones (Some t) acc = Ok m /\
  map fst m = map fst acc ++ zones /\
  (forall z off, In z zones -> tzdb z = Some off ->
     obj_get m z = Some (hhmm (local_civil off t))) /\
  (forall z, ~ In z zones -> obj_get m z = obj_get acc z).
Proof.
  induction zones as [|z0 zs IH]; simpl; intros acc Hknown Hnd Hfresh.
  - exists acc. rewrite app_nil_r.
    split; [reflexivity|]. split; [reflexivity|]. split; [intros ? ? []|intros; reflexivity].
  - inversion Hnd as [|? ? Hnin Hnd']; subst.
    unfold format_hhmm at 1.
    destruct (tzdb z0) as [off0|] eqn:E0; [|exfalso; exact (Hknown z0 (or_introl eq_refl) E0)].
    rewrite obj_set_fresh by (apply Hfresh; left; reflexivity).
    destruct (IH (acc ++ [(z0, hhmm (local_civil off0 t))])) as [m [Hm [Hk [Hg Ho]]]].
    + intros z Hz. apply Hknown. right. exact Hz.
    + exact Hnd'.
    + intros z Hz. rewrite map_app. simpl. rewrite in_app_iff. simpl.
      intros [H|[H|[]]]; [exact (Hfresh z (or_intror Hz) H)|subst; contradiction].
    + exists m. split; [exact Hm|]. split.
      { rewrite Hk, map_app. simpl. rewrite <- app_assoc. reflexivity. }
      split.
      * intros z off [->|Hz] Hoff.
        -- rewrite Ho by exact Hnin. rewrite obj_get_app.
           rewrite obj_get_none by (apply Hfresh; left; reflexivity).
           simpl. rewrite String.eqb_refl. rewrite E0 in Hoff. injection Hoff as ->. reflexivity.
        -- exact (Hg z off Hz Hoff).
      * intros z Hz. rewrite Ho by tauto. rewrite obj_get_app.
        destruct (obj_get acc z); [reflexivity|]. simpl.
        destruct (String.eqb z z0) eqn:E; [|reflexivity].
        apply String.eqb_eq in E. subst. exfalso. apply Hz. left. reflexivity.
Qed.

Lemma format_zones_none zones : zones <> [] -> forall acc,
  (forall z, In z zones -> tzdb z <> None) ->
  format_zones zones None acc = Throw RangeError.
Proof.
  destruct zones as [|z0 zs]; [contradiction|]. intros _ acc Hk. simpl.
  unfold format_hhmm. destruct (tzdb z0) eqn:E; [reflexivity|].
  exfalso. exact (Hk z0 (or_introl eq_refl) E).
Qed.

Lemma allZones_known z : In z allZones -> tzdb z <> None.
Proof. simpl. intros H. repeat destruct H as [<-|H]; try discriminate. destruct H. Qed.

Lemma allZones_NoDup : NoDup allZones.
Proof. repeat constructor; simpl; intuition discriminate. Qed.


Lemma getOffset_not_invalid a tz : getOffset a tz <> Throw InvalidInput.
Proof. unfold getOffset. destruct (tzdb tz); [destruct a|]; discriminate. Qed.

Lemma format_zones_not_invalid zones d : forall acc,
  format_zones zones d acc <> Throw InvalidInput.
Proof.
  induction zones as [|z zs IH]; simpl; intros acc; [discriminate|].
  unfold format_hhmm. destruct (tzdb z); [destruct d|]; [apply IH|discriminate|discriminate].
Qed.

Ltac bad_check E :=
  unfold invalid_check in E; cbn [falsy is_null isNaN_opt] in E;
  rewrite ?orb_true_r, ?orb_true_l in E; discriminate E.

(** [calculateEpochFromTimezone] throws the invalid-input error exactly
    when the validation test of the parsed numbers is true. *)
Lemma calc_invalid_iff dateStr timeStr src :
  calculateEpochFromTimezone dateStr timeStr src = Throw InvalidInput <->
  invalid_check (nth_error (split_numbers dateStr "-") 0)
                (nth_error (split_numbers dateStr "-") 1)
                (nth_error (split_numbers dateStr "-") 2)
                (nth_error (split_numbers timeStr ":") 0)
                (nth_error (split_numbers timeStr ":") 1) = true.
Proof.
  unfold calculateEpochFromTimezone. cbv zeta.
  destruct (invalid_check _ _ _ _ _) eqn:E; [tauto|].
  split; [|discriminate]. intros H.
  destruct (nth_error (split_numbers dateStr "-") 0); [|bad_check E].
  destruct (nth_error (split_numbers dateStr "-") 1); [|bad_check E].
  destruct (nth_error (split_numbers dateStr "-") 2); [|bad_check E].
  destruct (nth_error (split_numbers timeStr ":") 0); [|bad_check E].
  destruct (nth_error (split_numbers timeStr ":") 1); [|bad_check E].
  destruct (getOffset _ _) eqn:G; [discriminate|].
  injection H as ->. destruct (getOffset_not_invalid _ _ G).
Qed.

Lemma convertTime_invalid_iff dateStr timeStr src :
  convertTime dateStr timeStr src = Throw InvalidInput <->
  calculateEpochFromTimezone dateStr timeStr src = Throw InvalidInput.
Proof.
  rewrite convertTime_epoch.
  destruct (calculateEpochFromTimezone dateStr timeStr src); [|split; intros H; injection H as ->; reflexivity].
  split; [intros H; exfalso; exact (format_zones_not_invalid _ _ _ H)|discriminate].
Qed.





Lemma two_digits_roundtrip_spec k : two_digits_roundtrip k = true ->
  forall j, (j < k)%nat ->
  string_to_number (two_digits (Z.of_nat j)) = Fin (inject_Z (Z.of_nat j)).
Proof.
  induction k as [|k IH]; cbn [two_digits_roundtrip]; intros H j Hj; [lia|].
  destruct (string_to_number (two_digits (Z.of_nat k))) as [|[qn qd]|] eqn:E;
    try discriminate.
  apply andb_prop in H as [H1 H2]. apply andb_prop in H1 as [H1 H3].
  apply Z.eqb_eq in H1. apply Pos.eqb_eq in H3. cbn in H1, H3. subst.
  destruct (Nat.eq_dec j k) as [->|Hne]; [exact E|].
  apply IH; [exact H2|lia].
Qed.

Lemma two_digits_number n : 0 <= n < 100 ->
  string_to_number (two_digits n) = Fin (inject_Z n).
Proof.
  intros Hn. rewrite <- (Z2Nat.id n) by lia.
  apply (two_digits_roundtrip_spec 100); [vm_compute; reflexivity|lia].
Qed.

Lemma digit_char_not_colon n : 0 <= n < 10 -> (digit_char n =? ":")%char = false.
Proof.
  intros Hn. unfold digit_char.
  assert (Hk : (Z.to_nat n < 10)%nat) by lia.
  generalize dependent (Z.to_nat n). intros k Hk.
  do 10 (destruct k as [|k]; [reflexivity|]). lia.
Qed.

Lemma split_hhmm h mi : 0 <= h < 100 -> 0 <= mi < 100 ->
  split (two_digits h ++ ":" ++ two_digits mi)%string ":"%char = [two_digits h; two_digits mi].
Proof.
  intros Hh Hmi. unfold two_digits.
  assert (B : forall n, 0 <= n < 100 -> 0 <= n / 10 < 10 /\ 0 <= n mod 10 < 10).
  { intros n Hn. split; [split; [apply Z.div_pos; lia|apply Z.div_lt_upper_bound; lia]|].
    apply Z.mod_pos_bound; lia. }
  destruct (B h Hh) as [B1 B2], (B mi Hmi) as [B3 B4].
  pose proof (digit_char_not_colon _ B1) as E1.
  pose proof (digit_char_not_colon _ B2) as E2.
  pose proof (digit_char_not_colon _ B3) as E3.
  pose proof (digit_char_not_colon _ B4) as E4.
  set (a := digit_char (h / 10)) in *. set (b := digit_char (h mod 10)) in *.
  set (c := digit_char (mi / 10)) in *. set (d := digit_char (mi mod 10)) in *.
  unfold split. cbn [append split_acc]. rewrite E1. cbn [append split_acc].
  rewrite E2. cbn [append split_acc Ascii.eqb]. cbn [append split_acc].
  rewrite E3. cbn [append split_acc]. rewrite E4. reflexivity.
Qed.

Lemma split_numbers_hhmm h mi : 0 <= h < 100 -> 0 <= mi < 100 ->
  split_numbers (two_digits h ++ ":" ++ two_digits mi)%string ":"%char
  = [Fin (inject_Z h); Fin (inject_Z mi)].
Proof.
  intros Hh Hmi. unfold split_numbers. rewrite split_hhmm by assumption.
  cbn [map]. rewrite !two_digits_number by assumption. reflexivity.
Qed.


(** Re-resolving the local civil time of zone [tz] at [t] with the offset
    the resolver reports at [t] gives [t] back up to the dropped seconds. *)
Lemma resolve_at_instant tz off t : tzdb tz = Some off -> offset_exact off t ->
  resolve_with tz (local_civil off t) (Some t)
  = Ok (Fin (inject_Z (t - (t + off t * 1000) mod 60000))).
Proof.
  intros Htz Hex. pose proof (Date_UTC_local off t Hex) as [_ E].
  unfold resolve_with. cbv zeta. rewrite E.
  rewrite (getOffset_exact tz off t Htz Hex).
  destruct Hex as [Hms [H60 [Hoff [Ht [HL Hy]]]]].
  destruct (divmod (off t) 60) as [Ho Hob]; [lia|].
  destruct (divmod (t + off t * 1000) 60000) as [HL2 HL2b]; [lia|].
  change (Fin 60) with (Fin (inject_Z 60)).
  change (Fin 1000) with (Fin (inject_Z 1000)).
  rewrite js_mul_Z by small. rewrite js_mul_Z by small.
  rewrite time_num_small by small. rewrite js_sub_Z by small.
  do 3 f_equal. lia.
Qed.

Lemma convert_multi_ok date time src m : convert_multi date time src = Ok m ->
  exists ep t, calculateEpochFromTimezone date time src = Ok ep /\
  new_Date ep = Some t /\
  forall z, In z allZones -> exists off, tzdb z = Some off /\
    obj_get m z = Some (hhmm (local_civil off t)).
Proof.
  unfold convert_multi. destruct (calculateEpochFromTimezone date time src) as [ep|e];
    [|discriminate]. intros H.
  destruct (new_Date ep) as [t|] eqn:Et.
  - destruct (format_zones_spec allZones t [] allZones_known allZones_NoDup)
      as [m' [Hm [_ [Hg _]]]]; [intros ? ? []|].
    rewrite Hm in H. injection H as <-.
    exists ep, t. split; [reflexivity|]. split; [exact Et|].
    intros z Hz. destruct (tzdb z) as [off|] eqn:E; [|destruct (allZones_known z Hz E)].
    exists off. split; [reflexivity|]. exact (Hg z off Hz E).
  - rewrite format_zones_none in H; [discriminate|discriminate|exact allZones_known].
Qed.

(** * Claims *)

(** C1 (amended): every entry of the [/convert-multi] mapping is the HH:MM,
    in its zone, of the one instant [t] computed by
    [calculateEpochFromTimezone]; re-resolving the local civil times of any
    two zones back with the Offset Resolver taken at [t] yields instants
    within 60 seconds of [t] and of each other. *)
Theorem convert_multi_same_instant date time src m :
  convert_multi date time src = Ok m ->
  exists ep t, calculateEpochFromTimezone date time src = Ok ep /\
  new_Date ep = Some t /\
  (forall z, In z allZones -> exists off, tzdb z = Some off /\
     obj_get m z = Some (hhmm (local_civil off t))) /\
  (forall z1 z2 off1 off2, tzdb z1 = Some off1 -> tzdb z2 = Some off2 ->
     offset_exact off1 t -> offset_exact off2 t ->
     exists r1 r2,
       resolve_with z1 (local_civil off1 t) (Some t) = Ok (Fin (inject_Z r1)) /\
       resolve_with z2 (local_civil off2 t) (Some t) = Ok (Fin (inject_Z r2)) /\
       t - 60000 < r1 <= t /\ t - 60000 < r2 <= t /\ Z.abs (r1 - r2) < 60000).
Proof.
  intros H. destruct (convert_multi_ok date time src m H) as [ep [t [He [Ht Hg]]]].
  exists ep, t. split; [exact He|]. split; [exact Ht|]. split; [exact Hg|].
  intros z1 z2 off1 off2 H1 H2 X1 X2.
  exists (t - (t + off1 t * 1000) mod 60000), (t - (t + off2 t * 1000) mod 60000).
  rewrite (resolve_at_instant z1 off1 t H1 X1), (resolve_at_instant z2 off2 t H2 X2).
  destruct (divmod (t + off1 t * 1000) 60000) as [_ B1]; [lia|].
  destruct (divmod (t + off2 t * 1000) 60000) as [_ B2]; [lia|].
  split; [reflexivity|]. split; [reflexivity|]. lia.
Qed.


(** C1 (counterexample): from Bogota 2025-03-09 04:00 the mapping reports
    New York 05:00; resolving each reported local time back through the
    converter, New York's comes out one hour after Bogota's. *)
Lemma convert_multi_reresolve_dst_gap :
  convert_multi "2025-03-09" "04:00" "America/Bogota"
  = Ok [("America/Santiago", "06:00"); ("America/New_York", "05:00");
        ("America/Argentina/Buenos_Aires", "06:00");
        ("America/Bogota", "04:00"); ("America/Santo_Domingo", "05:00")]%string /\
  calculateEpochFromTimezone "2025-03-09" "05:00" "America/New_York"
  = Ok (Fin 1741514400000) /\
  calculateEpochFromTimezone "2025-03-09" "04:00" "America/Bogota"
  = Ok (Fin 1741510800000) /\
  1741514400000 - 1741510800000 > 60000.
Proof.
  split; [vm_compute; reflexivity|]. split; [vm_compute; reflexivity|].
  split; [vm_compute; reflexivity|lia].
Qed.

Lemma convert_multi_same_instant_witness :
  convert_multi "2025-01-15" "14:30" "America/Santiago"
  = Ok [("America/Santiago", "14:30"); ("America/New_York", "12:30");
        ("America/Argentina/Buenos_Aires", "14:30");
        ("America/Bogota", "12:30"); ("America/Santo_Domingo", "13:30")]%string /\
  exists ep t, calculateEpochFromTimezone "2025-01-15" "14:30" "America/Santiago"
               = Ok ep /\ new_Date ep = Some t.
Proof.
  split; [vm_compute; reflexivity|].
  destruct (convert_multi_same_instant "2025-01-15" "14:30" "America/Santiago"
    [("America/Santiago", "14:30"); ("America/New_York", "12:30");
     ("America/Argentina/Buenos_Aires", "14:30");
     ("America/Bogota", "12:30"); ("America/Santo_Domingo", "13:30")]%string)
    as [ep [t [He [Ht _]]]].
  - vm_compute. reflexivity.
  - exists ep, t. split; [exact He|exact Ht].
Defined.

(** C2 (code bug): at 0050-06-01T00:00Z Bogota (LMT, 4:56:16 west of UTC)
    reads 0050-05-31 19:03:44; [Date.UTC] takes the year 50 for 1950, so
    [getOffset] returns a positive offset of about 1900 years, where the
    fields reinterpreted as UTC give -296.27 minutes.  The same slip
    reaches [calculateEpochFromTimezone]: 0100-01-01 00:00 in Bogota
    (0100-01-01T04:56:16Z) comes out 1900 years earlier. *)
Theorem getOffset_two_digit_year :
  let t := utc_ms 50 6 1 0 0 0 in
  let bogota := zone_offset (-17776) bogota_tr in
  bogota t = -17776 /\
  (spec_offset_minutes bogota t == - (17776 # 60))%Q /\
  (exists q, getOffset (Some t) "America/Bogota" = Ok (Fin q) /\ (0 < q)%Q) /\
  calculateEpochFromTimezone "0100-01-01" "00:00" "America/Bogota"
  = Ok (Fin (-118969585424000)) /\
  utc_ms 100 1 1 4 56 16 = -59011441424000.
Proof.
  intros t bogota.
  split; [vm_compute; reflexivity|]. split; [vm_compute; reflexivity|].
  split; [|split; vm_compute; reflexivity].
  eexists. split; [vm_compute; reflexivity|]. vm_compute. reflexivity.
Qed.



(** C4: the concrete scenario of the spec. *)
Theorem convert_multi_santiago_jan15 :
  exists m, convert_multi "2025-01-15" "14:30" "America/Santiago" = Ok m /\
  obj_get m "America/New_York" = Some "12:30"%string /\
  obj_get m "America/Bogota" = Some "12:30"%string.
Proof.
  eexists. split; [vm_compute; reflexivity|]. split; vm_compute; reflexivity.
Qed.








Lemma truthy_not_nan x : truthy x = true -> is_nan x = false.
Proof. destruct x; simpl; congruence. Qed.

Lemma invalid_check_fields y mo d h mi :
  truthy y = true -> truthy mo = true -> truthy d = true ->
  is_nan h = false -> is_nan mi = false ->
  invalid_check (Some y) (Some mo) (Some d) (Some h) (Some mi) = false.
Proof.
  intros Hy Hmo Hd Hh Hmi. unfold invalid_check, falsy, is_null, isNaN_opt.
  rewrite Hy, Hmo, Hd, Hh, Hmi, !truthy_not_nan by assumption. reflexivity.
Qed.








(** C8: when the source zone is one of the five supported zones and the
    instant is in range, [convertTime] returns one "HH:MM" entry for each
    of the other four zones, in the order of the zone list, and none for
    the source zone. *)
Theorem convertTime_keys dateStr timeStr src ep t :
  In src allZones ->
  calculateEpochFromTimezone dateStr timeStr src = Ok ep ->
  new_Date ep = Some t ->
  exists m, convertTime dateStr timeStr src = Ok m /\
    map fst m = filter (fun tz => negb (String.eqb tz src)) allZones /\
    length m = 4%nat /\
    obj_get m src = None /\
    (forall z off, In z allZones -> z <> src -> tzdb z = Some off ->
       obj_get m z = Some (hhmm (local_civil off t))).
Proof.
  intros Hin Hc Ht.
  set (zs := filter (fun tz => negb (String.eqb tz src)) allZones).
  assert (Hzs : forall z, In z zs <-> In z allZones /\ z <> src).
  { intros z. unfold zs. rewrite filter_In, negb_true_iff, String.eqb_neq. tauto. }
  destruct (format_zones_spec zs t [])
    as [m [Hm [Hk [Hget Hrest]]]].
  - intros z Hz. apply allZones_known, Hzs, Hz.
  - apply NoDup_filter, allZones_NoDup.
  - intros z _ [].
  - exists m. rewrite convertTime_epoch, Hc, Ht. split; [exact Hm|].
    split; [exact Hk|]. split.
    + rewrite <- (length_map fst), Hk. unfold zs.
      simpl in Hin. repeat destruct Hin as [<- | Hin]; try reflexivity. destruct Hin.
    + split.
      * rewrite Hrest; [reflexivity|]. intros H. apply Hzs in H. tauto.
      * intros z off Hz Hne Hoff. apply Hget; [apply Hzs; tauto | exact Hoff].
Qed.

Lemma convertTime_keys_witness :
  exists m, convertTime "2025-01-15" "14:30" "America/Santiago" = Ok m /\
    map fst m = ["America/New_York"; "America/Argentina/Buenos_Aires";
                 "America/Bogota"; "America/Santo_Domingo"]%string /\
    length m = 4%nat.
Proof.
  destruct (convertTime_keys "2025-01-15" "14:30" "America/Santiago"
              (Fin 1736962200000) 1736962200000) as [m [Hm [Hk [Hl _]]]].
  - left. reflexivity.
  - vm_compute. reflexivity.
  - vm_compute. reflexivity.
  - exists m. split; [exact Hm|]. split; [exact Hk|exact Hl].
Defined.

(** C9: [convertTime] formats exactly the epoch [calculateEpochFromTimezone]
    computes from the same three strings, and the two fail with
    [InvalidInput] on the same inputs. *)
Theorem convertTime_refines_calculateEpoch dateStr timeStr src :
  (convertTime dateStr timeStr src = Throw InvalidInput <->
   calculateEpochFromTimezone dateStr timeStr src = Throw InvalidInput) /\
  convertTime dateStr timeStr src =
  match calculateEpochFromTimezone dateStr timeStr src with
  | Throw e => Throw e
  | Ok epochUTC =>
      format_zones (filter (fun tz => negb (String.eqb tz src)) allZones)
                   (new_Date epochUTC) []
  end.
Proof. split; [apply convertTime_invalid_iff | apply convertTime_epoch]. Qed.

(** C10: an hour or minute of 0 is accepted: with a truthy year, month
    and day, no well-formed "HH:MM" time, "00:00" included, is rejected
    with [InvalidInput] by either entry point. *)
Theorem midnight_accepted dateStr src y mo d h mi :
  nth_error (split_numbers dateStr "-") 0 = Some y ->
  nth_error (split_numbers dateStr "-") 1 = Some mo ->
  nth_error (split_numbers dateStr "-") 2 = Some d ->
  truthy y = true -> truthy mo = true -> truthy d = true ->
  0 <= h < 100 -> 0 <= mi < 100 ->
  calculateEpochFromTimezone dateStr "00:00" src <> Throw InvalidInput /\
  convertTime dateStr "00:00" src <> Throw InvalidInput /\
  calculateEpochFromTimezone dateStr (two_digits h ++ ":" ++ two_digits mi) src
    <> Throw InvalidInput /\
  convertTime dateStr (two_digits h ++ ":" ++ two_digits mi) src <> Throw InvalidInput.
Proof.
  intros Hy Hmo Hd Ty Tmo Td Hh Hmi.
  assert (G : forall h mi, 0 <= h < 100 -> 0 <= mi < 100 ->
            calculateEpochFromTimezone dateStr (two_digits h ++ ":" ++ two_digits mi) src
            <> Throw InvalidInput).
  { intros h' mi' Hh' Hmi'. rewrite calc_invalid_iff, Hy, Hmo, Hd, split_numbers_hhmm by assumption.
    cbn [nth_error]. rewrite invalid_check_fields by (assumption || reflexivity).
    discriminate. }
  assert (Z0 : "00:00"%string = (two_digits 0 ++ ":" ++ two_digits 0)%string) by reflexivity.
  rewrite !convertTime_invalid_iff, Z0.
  repeat split; apply G; lia.
Qed.

Lemma midnight_accepted_witness :
  (calculateEpochFromTimezone "2025-01-15" "00:00" "America/Santiago"
     <> Throw InvalidInput /\
   convert_multi "2025-01-15" "00:00" "America/Santiago"
   = Ok [("America/Santiago", "00:00"); ("America/New_York", "22:00");
         ("America/Argentina/Buenos_Aires", "00:00");
         ("America/Bogota", "22:00"); ("America/Santo_Domingo", "23:00")]%string).
Proof.
  destruct (midnight_accepted "2025-01-15" "America/Santiago" (Fin 2025) (Fin 1) (Fin 15) 0 0)
    as [H _]; try (vm_compute; reflexivity); try lia.
  split; [exact H | vm_compute; reflexivity].
Defined.
